(** * BitBet session backend (backend.py): shallow embedding and properties

    The [sessions] table is a list of rows, every SQL statement of the
    source is a function on that list, and the four HTTP handlers together
    with one iteration of [cleanup_loop] are written in a small
    state-and-exception monad over the table.  Clock readings ([now()] and
    the clock read inside [jwt.decode]) and the identifiers drawn from
    [uuid.uuid4()] are explicit arguments. *)

From Stdlib Require Import ZArith List String Ascii Bool Lia DecimalString.
Import ListNotations.
Local Open Scope Z_scope.
Local Open Scope string_scope.

(** ** ENV *)

Record Config := mkConfig {
  JWT_SECRET : string;
  JWT_ISS : string;
  JWT_AUD : string;
  SESSION_IDLE_TIMEOUT : Z;
  FRONT_BASE_URL : string
}.

Definition JWT_ALG : string := "HS256".

(** The values the source falls back to when the environment is empty. *)
Definition default_config : Config :=
  {| JWT_SECRET := "CHANGE_ME_SECRET";
     JWT_ISS := "bitbet";
     JWT_AUD := "bitbet-web";
     SESSION_IDLE_TIMEOUT := 300;
     FRONT_BASE_URL := "https://twoj-user.github.io/bitbet-stack" |}.

(** ** DB *)

(** One row of [CREATE TABLE sessions]; [active] is an INTEGER column. *)
Record Session := mkSession {
  session_id : string;
  user_id : Z;
  created_at : Z;
  last_active : Z;
  active : Z;
  jti : string
}.

Definition table := list Session.

Definition set_last_active (t : Z) (r : Session) : Session :=
  {| session_id := session_id r; user_id := user_id r;
     created_at := created_at r; last_active := t;
     active := active r; jti := jti r |}.

Definition set_active (a : Z) (r : Session) : Session :=
  {| session_id := session_id r; user_id := user_id r;
     created_at := created_at r; last_active := last_active r;
     active := a; jti := jti r |}.

(** [UPDATE sessions SET ... WHERE ...]: every row the condition selects is
    rewritten, the others are kept, nothing is added or removed. *)
Definition sql_update (where_ : Session -> bool) (set_ : Session -> Session)
    (db : table) : table :=
  map (fun r => if where_ r then set_ r else r) db.

(** [INSERT INTO sessions ... VALUES ...]: [session_id] is the PRIMARY KEY,
    so a row whose key is already present is refused (IntegrityError). *)
Definition sql_insert (r : Session) (db : table) : option table :=
  if existsb (fun x => session_id x =? session_id r) db
  then None
  else Some (db ++ [r])%list.

(** [SELECT active, last_active FROM sessions WHERE session_id=? AND jti=?]
    followed by [fetchone()]. *)
Definition select_status (sid j : string) (db : table) : option (Z * Z) :=
  match find (fun r => (session_id r =? sid) && (jti r =? j)) db with
  | Some r => Some (active r, last_active r)
  | None => None
  end.

(** [UPDATE sessions SET last_active=? WHERE session_id=?] *)
Definition update_touch (t : Z) (sid : string) : table -> table :=
  sql_update (fun r => session_id r =? sid) (set_last_active t).

(** [UPDATE sessions SET active=0 WHERE session_id=? AND jti=?] *)
Definition update_end (sid j : string) : table -> table :=
  sql_update (fun r => (session_id r =? sid) && (jti r =? j)) (set_active 0).

(** [UPDATE sessions SET active=0 WHERE session_id=?] *)
Definition update_expire (sid : string) : table -> table :=
  sql_update (fun r => session_id r =? sid) (set_active 0).

(** [UPDATE sessions SET active=0 WHERE active=1 AND last_active<?] *)
Definition update_sweep (cutoff : Z) : table -> table :=
  sql_update (fun r => (active r =? 1)%Z && (last_active r <? cutoff)%Z)
             (set_active 0).

(** ** MODELE *)

(** Python's [str] on an [int]: decimal digits, a leading minus sign. *)
Definition str (n : Z) : string := NilZero.string_of_int (Z.to_int n).

(** [s.rstrip(c)] for a single character [c]. *)
Fixpoint rstrip (c : ascii) (s : string) : string :=
  match s with
  | EmptyString => EmptyString
  | String a s' =>
    match rstrip c s' with
    | EmptyString => if Ascii.eqb a c then EmptyString else String a EmptyString
    | r => String a r
    end
  end.

Record CreateSessionIn := mkCreateSessionIn {
  in_user_id : Z;
  in_username : option string
}.

Record SessionClaims := mkSessionClaims {
  sub : string;
  sid : string;
  c_jti : string;
  iss : string;
  aud : string;
  iat : Z;
  exp : Z
}.

(** ** JWT

    The [jwt] package is a third-party library.  It is modelled
    symbolically: a token is either a string that is no compact JWS at all,
    or a payload together with the algorithm and the key it was signed
    with.  A payload is the decoded JSON object restricted to the seven
    claims the source reads; any of them may be missing. *)

Record Payload := mkPayload {
  p_sub : option string;
  p_sid : option string;
  p_jti : option string;
  p_iss : option string;
  p_aud : option string;
  p_iat : option Z;
  p_exp : option Z
}.

Inductive JWT :=
| Malformed (raw : string)
| Signed (alg key : string) (payload : Payload).

(** The exception classes [jwt.decode] raises. *)
Inductive JWTError :=
| DecodeError
| InvalidAlgorithmError
| InvalidSignatureError
| ImmatureSignatureError
| ExpiredSignatureError
| MissingRequiredClaimError (claim : string)
| InvalidIssuerError
| InvalidAudienceError.

Definition jwt_encode (payload : Payload) (key alg : string) : JWT :=
  Signed alg key payload.

(** [jwt.decode(token, key, algorithms=[alg], audience=..., issuer=...)] at
    clock reading [t]: structure, algorithm, signature, then the registered
    claims [iat], [exp], [iss], [aud]. *)
Definition jwt_decode (token : JWT) (key alg audience issuer : string)
    (t : Z) : JWTError + Payload :=
  match token with
  | Malformed _ => inl DecodeError
  | Signed a k p =>
    if negb (a =? alg) then inl InvalidAlgorithmError
    else if negb (k =? key) then inl InvalidSignatureError
    else if match p_iat p with Some i => (t <? i)%Z | None => false end
      then inl ImmatureSignatureError
    else if match p_exp p with Some e => (e <=? t)%Z | None => false end
      then inl ExpiredSignatureError
    else match p_iss p with
      | None => inl (MissingRequiredClaimError "iss")
      | Some i =>
        if negb (i =? issuer) then inl InvalidIssuerError
        else match p_aud p with
          | None => inl (MissingRequiredClaimError "aud")
          | Some a' =>
            if negb (a' =? audience) then inl InvalidAudienceError
            else inr p
          end
      end
  end.

(** The [SessionClaims] model built from the decoded dict: every field is
    required. *)
Definition session_claims (p : Payload) : option SessionClaims :=
  match p_sub p, p_sid p, p_jti p, p_iss p, p_aud p, p_iat p, p_exp p with
  | Some s, Some i, Some j, Some is_, Some a, Some ia, Some e =>
    Some (mkSessionClaims s i j is_ a ia e)
  | _, _, _, _, _, _, _ => None
  end.

(** ** Requests, responses, exceptions *)

Record HTTPException := mkHTTPException {
  status_code : Z;
  detail : string
}.

Inductive result (A : Type) :=
| Ok (a : A)
| Raise (e : HTTPException).
Arguments Ok {A} a.
Arguments Raise {A} e.

Definition fails {A} (r : result A) : Prop :=
  match r with Ok _ => False | Raise _ => True end.

(** The [Authorization] header of a request: absent, a value that does not
    start with ["Bearer "], or ["Bearer "] followed by a token. *)
Inductive Request :=
| NoAuthorization
| OtherAuthorization (value : string)
| Bearer (token : JWT).

Section Backend.

Variable cfg : Config.

(** [make_token]; [t_iat] and [t_exp] are its two readings of [now()]. *)
Definition make_token (uid : Z) (s_id j : string) (ttl_seconds : Z)
    (t_iat t_exp : Z) : JWT :=
  let payload :=
    {| p_sub := Some (str uid);
       p_sid := Some s_id;
       p_jti := Some j;
       p_iss := Some (JWT_ISS cfg);
       p_aud := Some (JWT_AUD cfg);
       p_iat := Some t_iat;
       p_exp := Some (t_exp + ttl_seconds)%Z |} in
  jwt_encode payload (JWT_SECRET cfg) JWT_ALG.

(** [parse_auth_token]; [t] is the clock [jwt.decode] reads.  Whatever
    [jwt.decode] or the [SessionClaims] constructor raises is caught by the
    one [except Exception] clause. *)
Definition parse_auth_token (request : Request) (t : Z)
    : result SessionClaims :=
  match request with
  | NoAuthorization | OtherAuthorization _ =>
    Raise (mkHTTPException 401 "Missing bearer token")
  | Bearer token =>
    match jwt_decode token (JWT_SECRET cfg) JWT_ALG (JWT_AUD cfg)
                     (JWT_ISS cfg) t with
    | inl _ => Raise (mkHTTPException 401 "Invalid token")
    | inr data =>
      match session_claims data with
      | Some claims => Ok claims
      | None => Raise (mkHTTPException 401 "Invalid token")
      end
    end
  end.

(** ** The handler monad

    A handler reads and writes the table and may raise an [HTTPException];
    statements committed before the exception stay committed. *)

Definition M (A : Type) : Type := table -> table * result A.

Definition ret {A} (a : A) : M A := fun db => (db, Ok a).

Definition raise {A} (e : HTTPException) : M A := fun db => (db, Raise e).

Definition bind {A B} (m : M A) (k : A -> M B) : M B :=
  fun db =>
    match m db with
    | (db', Ok a) => k a db'
    | (db', Raise e) => (db', Raise e)
    end.

Definition lift {A} (r : result A) : M A := fun db => (db, r).

Definition query {A} (q : table -> A) : M A := fun db => (db, Ok (q db)).

Definition execute (u : table -> table) : M unit := fun db => (u db, Ok tt).

(** An INSERT the primary key refuses is an unhandled IntegrityError, which
    the framework answers with status 500. *)
Definition execute_insert (r : Session) : M unit :=
  fun db =>
    match sql_insert r db with
    | Some db' => (db', Ok tt)
    | None => (db, Raise (mkHTTPException 500 "Internal Server Error"))
    end.

Notation "x <- m ;; k" := (bind m (fun x => k))
  (at level 61, m at next level, right associativity).
Notation "m ;;; k" := (bind m (fun _ => k))
  (at level 61, right associativity).

(** ** ENDPOINTY *)

(** The session link [f"{base}/s/{s_id}#token={tkn}"]: the text up to the
    token, and the token. *)
Record SessionUrl := mkSessionUrl {
  url_text : string;
  url_token : JWT
}.

Record CreateSessionOut := mkCreateSessionOut {
  out_session_id : string;
  out_url : SessionUrl;
  out_token : JWT;
  expires_idle_seconds : Z
}.

Record HeartbeatOut := mkHeartbeatOut {
  hb_ok : bool;
  remaining_idle_seconds : Z
}.

Record EndOut := mkEndOut { end_ok : bool }.

Record MeOut := mkMeOut {
  me_user_id : string;
  me_session_id : string
}.

(** [create_session]: [s_id] and [j] are the two [uuid4] draws, [t_iat] and
    [t_exp] the clock readings inside [make_token], [t_created] and [t_last]
    the two readings in the INSERT. *)
Definition create_session (payload : CreateSessionIn) (s_id j : string)
    (t_iat t_exp t_created t_last : Z) : M CreateSessionOut :=
  let tkn :=
    make_token (in_user_id payload) s_id j (24 * 3600) t_iat t_exp in
  execute_insert (mkSession s_id (in_user_id payload) t_created t_last 1 j) ;;;
  let url :=
    mkSessionUrl
      (rstrip "/"%char (FRONT_BASE_URL cfg) ++ "/s/" ++ s_id ++ "#token=")
      tkn in
  ret (mkCreateSessionOut s_id url tkn (SESSION_IDLE_TIMEOUT cfg)).

(** [heartbeat]: [t_jwt] is the clock of [jwt.decode], [t_now] is [now()]. *)
Definition heartbeat (request : Request) (t_jwt t_now : Z) : M HeartbeatOut :=
  claims <- lift (parse_auth_token request t_jwt) ;;
  row <- query (select_status (sid claims) (c_jti claims)) ;;
  match row with
  | None => raise (mkHTTPException 401 "Session not found")
  | Some (act, _) =>
    if (act =? 0)%Z then raise (mkHTTPException 410 "Session ended")
    else
      execute (update_touch t_now (sid claims)) ;;;
      ret (mkHeartbeatOut true (SESSION_IDLE_TIMEOUT cfg))
  end.

(** [end_session] *)
Definition end_session (request : Request) (t_jwt : Z) : M EndOut :=
  claims <- lift (parse_auth_token request t_jwt) ;;
  execute (update_end (sid claims) (c_jti claims)) ;;;
  ret (mkEndOut true).

(** [me], the whoami operation *)
Definition me (request : Request) (t_jwt t_now : Z) : M MeOut :=
  claims <- lift (parse_auth_token request t_jwt) ;;
  row <- query (select_status (sid claims) (c_jti claims)) ;;
  match row with
  | None => raise (mkHTTPException 401 "Session not found")
  | Some (act, la) =>
    if (act =? 0)%Z then raise (mkHTTPException 410 "Session ended")
    else if (SESSION_IDLE_TIMEOUT cfg <? t_now - la)%Z then
      execute (update_expire (sid claims)) ;;;
      raise (mkHTTPException 410 "Session expired")
    else ret (mkMeOut (sub claims) (sid claims))
  end.

(** One iteration of [cleanup_loop]. *)
Definition cleanup (t_now : Z) : M unit :=
  let cutoff := (t_now - SESSION_IDLE_TIMEOUT cfg)%Z in
  execute (update_sweep cutoff).

(** ** Histories of operations *)

Inductive op :=
| CreateSession (payload : CreateSessionIn) (s_id j : string)
                (t_iat t_exp t_created t_last : Z)
| Heartbeat (request : Request) (t_jwt t_now : Z)
| EndSession (request : Request) (t_jwt : Z)
| Me (request : Request) (t_jwt t_now : Z)
| Cleanup (t_now : Z).

(** The table an operation leaves behind, whatever it answers. *)
Definition step (o : op) (db : table) : table :=
  match o with
  | CreateSession payload s_id j t1 t2 t3 t4 =>
    fst (create_session payload s_id j t1 t2 t3 t4 db)
  | Heartbeat request t_jwt t_now => fst (heartbeat request t_jwt t_now db)
  | EndSession request t_jwt => fst (end_session request t_jwt db)
  | Me request t_jwt t_now => fst (me request t_jwt t_now db)
  | Cleanup t_now => fst (cleanup t_now db)
  end.

Definition run (ops : list op) (db : table) : table :=
  fold_left (fun d o => step o d) ops db.

End Backend.

(** ** Relations between tables

    What may happen to a stored row: the four columns written once at
    creation are kept, and a row that is ended stays ended. *)

Definition same_identity (r r' : Session) : Prop :=
  session_id r' = session_id r /\ user_id r' = user_id r /\
  created_at r' = created_at r /\ jti r' = jti r.

Definition row_step (r r' : Session) : Prop :=
  same_identity r r' /\ (active r = 0 -> active r' = 0).

(** What an operation commits: nothing, one UPDATE whose SET clause is a
    [row_step], or one accepted INSERT. *)
Inductive commit : table -> table -> Prop :=
| commit_none db : commit db db
| commit_update where_ set_ db :
    (forall r, row_step r (set_ r)) ->
    commit db (sql_update where_ set_ db)
| commit_insert r db db' :
    sql_insert r db = Some db' -> commit db db'.

(** The token [(s, j)] can no longer open a session: the key [s] is taken,
    and every row the pair selects is ended. *)
Definition revoked (s j : string) (db : table) : Prop :=
  (exists r, In r db /\ session_id r = s) /\
  (forall r, In r db -> session_id r = s -> jti r = j -> active r = 0).

(** The token [(s, j)] selects no row. *)
Definition no_match (s j : string) (db : table) : Prop :=
  forall r, In r db -> session_id r = s -> jti r <> j.

(** ** Properties of tables and histories *)

(** [session_id] is a key: no two rows carry the same one. *)
Definition primary_key (db : table) : Prop := NoDup (map session_id db).

(** The [active] column holds a truth value. *)
Definition boolean_active (db : table) : Prop :=
  forall r, In r db -> active r = 0 \/ active r = 1.

(** The clock readings the heartbeats of a history pass to their UPDATE. *)
Fixpoint heartbeat_clocks (ops : list op) : list Z :=
  match ops with
  | [] => []
  | Heartbeat _ _ t_now :: ops' => t_now :: heartbeat_clocks ops'
  | _ :: ops' => heartbeat_clocks ops'
  end.

(** The configuration with another public base URL. *)
Definition with_front_base_url (cfg : Config) (base : string) : Config :=
  {| JWT_SECRET := JWT_SECRET cfg;
     JWT_ISS := JWT_ISS cfg;
     JWT_AUD := JWT_AUD cfg;
     SESSION_IDLE_TIMEOUT := SESSION_IDLE_TIMEOUT cfg;
     FRONT_BASE_URL := base |}.

(** ** Sample data *)

Module Sample.

Definition alice : CreateSessionIn := mkCreateSessionIn 42 (Some "alice").

(** The token [create_session] mints for [alice] at time [1000]. *)
Definition token : JWT :=
  make_token default_config 42 "s1" "j1" (24 * 3600) 1000 1000.

(** A token for the same session whose [jti] is not the stored one. *)
Definition other_jti_token : JWT :=
  make_token default_config 42 "s1" "j2" (24 * 3600) 1000 1000.

(** A token for a session that was never created. *)
Definition unknown_token : JWT :=
  make_token default_config 42 "s9" "j9" (24 * 3600) 1000 1000.

(** A well-formed token that carries another key's signature. *)
Definition forged_token : JWT :=
  make_token (mkConfig "guess" "bitbet" "bitbet-web" 300 "") 42 "s1" "j1"
             (24 * 3600) 1000 1000.

Definition row : Session := mkSession "s1" 42 1000 1000 1 "j1".

Definition ended_row : Session := set_active 0 row.

Definition touched_row : Session := set_last_active 2000 row.

(** The claims [token] carries. *)
Definition claims : SessionClaims :=
  mkSessionClaims "42" "s1" "j1" "bitbet" "bitbet-web" 1000 87400.

Definition other_jti_claims : SessionClaims :=
  mkSessionClaims "42" "s1" "j2" "bitbet" "bitbet-web" 1000 87400.

(** What [create_session] answers for [alice] on an empty table. *)
Definition created : CreateSessionOut :=
  mkCreateSessionOut "s1"
    (mkSessionUrl "https://twoj-user.github.io/bitbet-stack/s/s1#token="
                  token)
    token 300.

(** A history that touches the session, tries to create it a second time
    under the same identifiers, ends it, and goes on. *)
Definition history : list op :=
  [ Heartbeat (Bearer token) 1100 1100;
    CreateSession alice "s1" "j1" 1200 1200 1200 1200;
    EndSession (Bearer token) 1300;
    Me (Bearer token) 1400 1400;
    CreateSession alice "s2" "j1" 1500 1500 1500 1500;
    Cleanup 2000;
    Heartbeat (Bearer token) 2100 2100 ].

End Sample.

(** ** A second session *)

Module Scenario.

Definition bob_row : Session := mkSession "s2" 7 1500 1500 1 "j2".

Definition two_sessions : table := [Sample.row; bob_row].

(** [Sample.row] after a heartbeat at 1100. *)
Definition beaten_row : Session := set_last_active 1100 Sample.row.

End Scenario.

(** * Properties *)

Section Theory.

Variable cfg : Config.

Ltac handler :=
  unfold create_session, heartbeat, end_session, me, cleanup,
         bind, lift, query, execute, execute_insert, raise, ret.

(** ** Token verification *)

Lemma jwt_decode_inr token key alg audience issuer t p :
  jwt_decode token key alg audience issuer t = inr p ->
  exists a k, token = Signed a k p.
Proof.
  destruct token as [raw | a k q]; simpl; [discriminate |].
  intros H.
  repeat match type of H with
  | (if ?b then _ else _) = _ => destruct b; [discriminate |]
  | match ?x with Some _ => _ | None => _ end = _ =>
      destruct x; [| discriminate]
  end.
  injection H as <-. eauto.
Qed.

Lemma parse_auth_token_ok request t c :
  parse_auth_token cfg request t = Ok c ->
  exists a k p, request = Bearer (Signed a k p) /\ session_claims p = Some c.
Proof.
  destruct request as [| v | token]; simpl; try discriminate.
  destruct (jwt_decode token _ _ _ _ t) as [e | p] eqn:D; [discriminate |].
  destruct (session_claims p) as [c' |] eqn:S; [| discriminate].
  intros H; injection H as <-.
  destruct (jwt_decode_inr _ _ _ _ _ _ _ D) as (a & k & ->). eauto.
Qed.

(** The claims a request carries do not depend on when it is verified. *)
Lemma parse_auth_token_claims request t t' c c' :
  parse_auth_token cfg request t = Ok c ->
  parse_auth_token cfg request t' = Ok c' -> c = c'.
Proof.
  intros H H'.
  destruct (parse_auth_token_ok _ _ _ H) as (a & k & p & -> & S).
  destruct (parse_auth_token_ok _ _ _ H') as (a' & k' & p' & E & S').
  injection E as _ _ <-. congruence.
Qed.

(** The token [make_token] signs verifies from its issue time until its
    hard expiry. *)
Lemma parse_minted uid s_id j ttl t_iat t_exp t :
  t_iat <= t -> t < t_exp + ttl ->
  parse_auth_token cfg (Bearer (make_token cfg uid s_id j ttl t_iat t_exp)) t
  = Ok (mkSessionClaims (str uid) s_id j (JWT_ISS cfg) (JWT_AUD cfg)
                        t_iat (t_exp + ttl)).
Proof.
  intros Hi He. simpl. rewrite !String.eqb_refl. simpl.
  destruct (Z.ltb_spec t t_iat); [lia |].
  destruct (Z.leb_spec (t_exp + ttl) t); [lia |].
  reflexivity.
Qed.

(** ** Handlers, case by case *)

Lemma heartbeat_unfold request t_jwt t_now db :
  heartbeat cfg request t_jwt t_now db =
  match parse_auth_token cfg request t_jwt with
  | Raise e => (db, Raise e)
  | Ok claims =>
    match select_status (sid claims) (c_jti claims) db with
    | None => (db, Raise (mkHTTPException 401 "Session not found"))
    | Some (act, _) =>
      if (act =? 0)%Z
      then (db, Raise (mkHTTPException 410 "Session ended"))
      else (update_touch t_now (sid claims) db,
            Ok (mkHeartbeatOut true (SESSION_IDLE_TIMEOUT cfg)))
    end
  end.
Proof.
  handler. destruct (parse_auth_token cfg request t_jwt); [| reflexivity].
  destruct (select_status _ _ db) as [[act la] |]; [| reflexivity].
  destruct (act =? 0)%Z; reflexivity.
Qed.

Lemma me_unfold request t_jwt t_now db :
  me cfg request t_jwt t_now db =
  match parse_auth_token cfg request t_jwt with
  | Raise e => (db, Raise e)
  | Ok claims =>
    match select_status (sid claims) (c_jti claims) db with
    | None => (db, Raise (mkHTTPException 401 "Session not found"))
    | Some (act, la) =>
      if (act =? 0)%Z
      then (db, Raise (mkHTTPException 410 "Session ended"))
      else if (SESSION_IDLE_TIMEOUT cfg <? t_now - la)%Z
      then (update_expire (sid claims) db,
            Raise (mkHTTPException 410 "Session expired"))
      else (db, Ok (mkMeOut (sub claims) (sid claims)))
    end
  end.
Proof.
  handler. destruct (parse_auth_token cfg request t_jwt); [| reflexivity].
  destruct (select_status _ _ db) as [[act la] |]; [| reflexivity].
  destruct (act =? 0)%Z; [reflexivity |].
  destruct (_ <? _)%Z; reflexivity.
Qed.

Lemma end_session_unfold request t_jwt db :
  end_session cfg request t_jwt db =
  match parse_auth_token cfg request t_jwt with
  | Raise e => (db, Raise e)
  | Ok claims =>
    (update_end (sid claims) (c_jti claims) db, Ok (mkEndOut true))
  end.
Proof.
  handler. destruct (parse_auth_token cfg request t_jwt); reflexivity.
Qed.

Lemma create_session_ok payload s_id j t_iat t_exp t_created t_last db db' out :
  create_session cfg payload s_id j t_iat t_exp t_created t_last db
  = (db', Ok out) ->
  sql_insert (mkSession s_id (in_user_id payload) t_created t_last 1 j) db
  = Some db' /\
  out_session_id out = s_id /\
  out_token out
  = make_token cfg (in_user_id payload) s_id j (24 * 3600) t_iat t_exp.
Proof.
  handler. destruct (sql_insert _ db) as [d |]; [| discriminate].
  intros H; injection H as <- <-. auto.
Qed.

(** ** Rows and statements *)

Lemma row_step_refl r : row_step r r.
Proof. repeat split; auto. Qed.

Lemma row_step_trans r1 r2 r3 :
  row_step r1 r2 -> row_step r2 r3 -> row_step r1 r3.
Proof.
  intros [(A & B & C & D) E] [(A' & B' & C' & D') E'].
  repeat split; try congruence. auto.
Qed.

Lemma set_last_active_step t r : row_step r (set_last_active t r).
Proof. repeat split; auto. Qed.

Lemma set_active_0_step r : row_step r (set_active 0 r).
Proof. repeat split; auto. Qed.

Create HintDb session.
#[local] Hint Resolve row_step_refl set_last_active_step set_active_0_step
  : session.

Lemma sql_update_nth where_ set_ db n r :
  nth_error db n = Some r ->
  nth_error (sql_update where_ set_ db) n
  = Some (if where_ r then set_ r else r).
Proof.
  intros H. unfold sql_update.
  exact (map_nth_error (fun x => if where_ x then set_ x else x) n db H).
Qed.

Lemma sql_update_length where_ set_ db :
  List.length (sql_update where_ set_ db) = List.length db.
Proof. apply length_map. Qed.

(** An UPDATE that selects no row changes nothing. *)
Lemma sql_update_none where_ set_ db :
  (forall r, In r db -> where_ r = false) ->
  sql_update where_ set_ db = db.
Proof.
  unfold sql_update. induction db as [| x db IH]; simpl; intros H.
  - reflexivity.
  - rewrite (H x) by auto. f_equal. apply IH. auto.
Qed.

(** Setting a column the WHERE clause does not read, twice, is setting it
    once. *)
Lemma sql_update_idem where_ set_ db :
  (forall r, where_ (set_ r) = where_ r) ->
  (forall r, set_ (set_ r) = set_ r) ->
  sql_update where_ set_ (sql_update where_ set_ db)
  = sql_update where_ set_ db.
Proof.
  intros Hw Hs. unfold sql_update. rewrite map_map.
  apply map_ext. intros r. destruct (where_ r) eqn:E.
  - now rewrite Hw, E, Hs.
  - now rewrite E.
Qed.

Lemma sql_insert_some r db db' :
  sql_insert r db = Some db' ->
  db' = (db ++ [r])%list /\
  (forall x, In x db -> session_id x <> session_id r).
Proof.
  unfold sql_insert.
  destruct (existsb _ db) eqn:E; [discriminate |].
  intros H; injection H as <-. split; [reflexivity |].
  intros x Hx Heq.
  assert (existsb (fun x => session_id x =? session_id r) db = true).
  { apply existsb_exists. exists x. split; [assumption |].
    now apply String.eqb_eq. }
  congruence.
Qed.

Lemma select_status_some s j db act la :
  select_status s j db = Some (act, la) ->
  exists r, In r db /\ session_id r = s /\ jti r = j /\
            active r = act /\ last_active r = la.
Proof.
  unfold select_status.
  destruct (find _ db) as [r |] eqn:F; [| discriminate].
  intros H; injection H as <- <-.
  apply find_some in F. destruct F as [Hin Hc].
  apply andb_true_iff in Hc. destruct Hc as [Hs Hj].
  apply String.eqb_eq in Hs, Hj. eauto 10.
Qed.

Lemma select_status_none s j db :
  no_match s j db -> select_status s j db = None.
Proof.
  intros H. unfold select_status.
  destruct (find _ db) as [r |] eqn:F; [| reflexivity].
  apply find_some in F. destruct F as [Hin Hc].
  apply andb_true_iff in Hc. destruct Hc as [Hs Hj].
  apply String.eqb_eq in Hs, Hj. now destruct (H r Hin Hs).
Qed.

(** The row just inserted is the one its key and [jti] select. *)
Lemma select_status_inserted r db db' :
  sql_insert r db = Some db' ->
  select_status (session_id r) (jti r) db' = Some (active r, last_active r).
Proof.
  intros H. apply sql_insert_some in H. destruct H as [-> Hfresh].
  unfold select_status.
  induction db as [| x db IH]; simpl.
  - now rewrite !String.eqb_refl.
  - destruct (session_id x =? session_id r) eqn:E.
    + apply String.eqb_eq in E. destruct (Hfresh x (or_introl eq_refl) E).
    + simpl. apply IH. intros y Hy. apply Hfresh. now right.
Qed.

(** ** What operations commit *)

Lemma commit_nth db db' n r :
  commit db db' -> nth_error db n = Some r ->
  exists r', nth_error db' n = Some r' /\ row_step r r'.
Proof.
  intros C H. destruct C as [db | w s db Hs | r0 db db' Hi].
  - exists r. auto with session.
  - exists (if w r then s r else r). split.
    + now apply sql_update_nth.
    + destruct (w r); auto with session.
  - apply sql_insert_some in Hi. destruct Hi as [-> _].
    exists r. split; [| auto with session].
    rewrite nth_error_app1; [assumption |].
    apply nth_error_Some. congruence.
Qed.

Lemma commit_revoked s j db db' :
  commit db db' -> revoked s j db -> revoked s j db'.
Proof.
  intros C [(r0 & Hin0 & Hs0) Hall].
  destruct C as [db | w st db Hst | r1 db db' Hi].
  - split; eauto.
  - set (f := fun r => if w r then st r else r).
    assert (Hf : forall r, row_step r (f r)).
    { intros r. unfold f. destruct (w r); auto with session. }
    split.
    + exists (f r0). split.
      * unfold sql_update. now apply (in_map f).
      * destruct (Hf r0) as [(A & _) _]. congruence.
    + intros r' Hin' Hs' Hj'. unfold sql_update in Hin'.
      apply in_map_iff in Hin'. destruct Hin' as (r & <- & Hin).
      destruct (Hf r) as [(A & _ & _ & D) E]. unfold f in A, D, E.
      apply E, Hall; congruence.
  - apply sql_insert_some in Hi. destruct Hi as [-> Hfresh]. split.
    + exists r0. split; [apply in_or_app; now left | assumption].
    + intros r Hin Hs Hj. apply in_app_or in Hin.
      destruct Hin as [Hin | [<- | []]]; [now apply Hall |].
      destruct (Hfresh r0 Hin0). congruence.
Qed.

Lemma step_commit o db : commit db (step cfg o db).
Proof.
  destruct o as [payload s_id j t1 t2 t3 t4 | request t_jwt t_now
                | request t_jwt | request t_jwt t_now | t_now]; simpl.
  - handler. destruct (sql_insert _ db) as [d |] eqn:E; simpl.
    + now apply commit_insert with (r := mkSession s_id (in_user_id payload) t3 t4 1 j).
    + constructor.
  - rewrite heartbeat_unfold.
    destruct (parse_auth_token _ _ _); [| constructor].
    destruct (select_status _ _ db) as [[act la] |]; [| constructor].
    destruct (act =? 0)%Z; simpl; [constructor |].
    apply commit_update. auto with session.
  - rewrite end_session_unfold.
    destruct (parse_auth_token _ _ _); simpl; [| constructor].
    apply commit_update. auto with session.
  - rewrite me_unfold.
    destruct (parse_auth_token _ _ _); [| constructor].
    destruct (select_status _ _ db) as [[act la] |]; [| constructor].
    destruct (act =? 0)%Z; simpl; [constructor |].
    destruct (_ <? _)%Z; simpl; [| constructor].
    apply commit_update. auto with session.
  - handler. simpl. apply commit_update. auto with session.
Qed.

Lemma run_cons o ops db : run cfg (o :: ops) db = run cfg ops (step cfg o db).
Proof. reflexivity. Qed.

Lemma run_nth ops : forall db n r,
  nth_error db n = Some r ->
  exists r', nth_error (run cfg ops db) n = Some r' /\ row_step r r'.
Proof.
  induction ops as [| o ops IH]; intros db n r H.
  - exists r. auto with session.
  - rewrite run_cons.
    destruct (commit_nth _ _ _ _ (step_commit o db) H) as (r1 & H1 & S1).
    destruct (IH _ _ _ H1) as (r2 & H2 & S2).
    exists r2. split; [assumption |]. eapply row_step_trans; eassumption.
Qed.

Lemma run_revoked s j ops : forall db,
  revoked s j db -> revoked s j (run cfg ops db).
Proof.
  induction ops as [| o ops IH]; intros db H; [assumption |].
  rewrite run_cons. apply IH.
  eapply commit_revoked; [apply step_commit | assumption].
Qed.

(** ** Authentication against the table *)

Lemma revoked_rejected request t0 c db t_jwt t_now :
  parse_auth_token cfg request t0 = Ok c ->
  revoked (sid c) (c_jti c) db ->
  fails (snd (heartbeat cfg request t_jwt t_now db)) /\
  fails (snd (me cfg request t_jwt t_now db)).
Proof.
  intros P [_ Hall]. rewrite heartbeat_unfold, me_unfold.
  destruct (parse_auth_token cfg request t_jwt) as [c' | e] eqn:P';
    [| simpl; auto].
  assert (c = c') as <- by (eapply parse_auth_token_claims; eassumption).
  destruct (select_status _ _ db) as [[act la] |] eqn:S; [| simpl; auto].
  apply select_status_some in S.
  destruct S as (r & Hin & Hs & Hj & <- & _).
  rewrite (Hall r Hin Hs Hj). simpl. auto.
Qed.

Lemma end_session_revokes request t c db :
  parse_auth_token cfg request t = Ok c ->
  (exists r, In r db /\ session_id r = sid c) ->
  revoked (sid c) (c_jti c) (fst (end_session cfg request t db)).
Proof.
  intros P (r0 & Hin0 & Hs0). rewrite end_session_unfold, P. simpl.
  unfold update_end, sql_update.
  set (f := fun r : Session => _). split.
  - exists (f r0). split; [now apply in_map |].
    unfold f. now destruct (_ && _).
  - intros r' Hin' Hs' Hj'. apply in_map_iff in Hin'.
    destruct Hin' as (r & <- & _). unfold f in *.
    destruct ((session_id r =? sid c) && (jti r =? c_jti c)) eqn:E;
      [reflexivity |].
    apply andb_false_iff in E.
    destruct E as [E | E]; apply String.eqb_neq in E; contradiction.
Qed.

(** X16.  [heartbeat] writes [last_active] only: no request, at no clock
    reading, makes it change an [active] column. *)
Lemma heartbeat_keeps_active request t_jwt t_now db :
  map active (fst (heartbeat cfg request t_jwt t_now db)) = map active db.
Proof.
  rewrite heartbeat_unfold.
  destruct (parse_auth_token _ _ _) as [c | e]; [| reflexivity].
  destruct (select_status _ _ db) as [[act la] |]; [| reflexivity].
  destruct (act =? 0)%Z; [reflexivity |].
  simpl. unfold update_touch, sql_update. rewrite map_map.
  apply map_ext. intros r. now destruct (session_id r =? _).
Qed.

(** ** The claims *)

(** C1 (the code departs from it).  The claim asks [heartbeat] to end a
    session whose [last_active] lies more than the idle timeout in the past
    and to answer "Session expired".  With the default timeout of 300
    seconds, a heartbeat arriving 1000 seconds after the last activity is
    accepted, answers with the full idle window and moves [last_active] to
    the present, so the session stays active; [me], on the same table and
    request, ends the session and answers 410 "Session expired". *)
Theorem heartbeat_revives_idle_session :
  (SESSION_IDLE_TIMEOUT default_config < 2000 - last_active Sample.row) /\
  heartbeat default_config (Bearer Sample.token) 2000 2000 [Sample.row]
  = ([Sample.touched_row], Ok (mkHeartbeatOut true 300)) /\
  me default_config (Bearer Sample.token) 2000 2000 [Sample.row]
  = ([Sample.ended_row], Raise (mkHTTPException 410 "Session expired")).
Proof. repeat split. Qed.

(** C2.  Once [end_session] has been served for a token whose session id
    names a stored row, every later [heartbeat] and every later [me] that
    presents the token fails, at any clock reading (so also before the hard
    expiry) and after any history of operations, session creations with
    arbitrary identifiers included. *)
Theorem ended_token_stays_rejected request t_end c db ops t_jwt t_now :
  parse_auth_token cfg request t_end = Ok c ->
  (exists r, In r db /\ session_id r = sid c) ->
  let db' := run cfg ops (fst (end_session cfg request t_end db)) in
  fails (snd (heartbeat cfg request t_jwt t_now db')) /\
  fails (snd (me cfg request t_jwt t_now db')).
Proof.
  intros P Hex db'. apply (revoked_rejected request t_end c); [assumption |].
  apply run_revoked. now apply end_session_revokes.
Qed.

(** C3 (as the code has it).  A token that verifies, and whose session id
    and [jti] together select no stored row, is answered 401 "Session not
    found" by [heartbeat] and by [me], and the table is left as it was.
    That is the answer whether the session id names no row at all or names
    a row with another [jti]: the lookup is one query on both columns. *)
Theorem unmatched_token_session_not_found request t_jwt t_now c db :
  parse_auth_token cfg request t_jwt = Ok c ->
  no_match (sid c) (c_jti c) db ->
  heartbeat cfg request t_jwt t_now db
  = (db, Raise (mkHTTPException 401 "Session not found")) /\
  me cfg request t_jwt t_now db
  = (db, Raise (mkHTTPException 401 "Session not found")).
Proof.
  intros P H. rewrite heartbeat_unfold, me_unfold, P.
  rewrite (select_status_none _ _ _ H). split; reflexivity.
Qed.

(** C4.  A token returned by [create_session] is accepted by [heartbeat]
    and by [me] on the table the creation left, provided the call is
    immediate: the clock has not gone back behind the issue time, the hard
    lifetime of 24 hours has not run out, and no more than the idle timeout
    has passed since the row was written. *)
Theorem created_token_accepted payload s_id j t_iat t_exp t_created t_last
    db db' out t_jwt t_now :
  create_session cfg payload s_id j t_iat t_exp t_created t_last db
  = (db', Ok out) ->
  t_iat <= t_jwt ->
  t_jwt < t_exp + 24 * 3600 ->
  t_now - t_last <= SESSION_IDLE_TIMEOUT cfg ->
  snd (heartbeat cfg (Bearer (out_token out)) t_jwt t_now db')
  = Ok (mkHeartbeatOut true (SESSION_IDLE_TIMEOUT cfg)) /\
  me cfg (Bearer (out_token out)) t_jwt t_now db'
  = (db', Ok (mkMeOut (str (in_user_id payload)) s_id)).
Proof.
  intros C Hi He Hidle.
  apply create_session_ok in C. destruct C as (I & _ & ->).
  apply select_status_inserted in I. simpl in I.
  rewrite heartbeat_unfold, me_unfold.
  rewrite (parse_minted _ _ _ _ _ _ _ Hi He). simpl.
  rewrite I. simpl.
  destruct (Z.ltb_spec (SESSION_IDLE_TIMEOUT cfg) (t_now - t_last)); [lia |].
  split; reflexivity.
Qed.

(** C5.  A row enters the table with [active = 1], and no history of
    operations (session creations, heartbeats, terminations, [me] calls,
    sweeps) brings a row whose [active] is 0 back to another value: the row
    is still there, at the same place, with [active = 0]. *)
Theorem active_only_falls :
  (forall payload s_id j t_iat t_exp t_created t_last db db' out,
     create_session cfg payload s_id j t_iat t_exp t_created t_last db
     = (db', Ok out) ->
     exists r, db' = (db ++ [r])%list /\ session_id r = s_id /\
               active r = 1) /\
  (forall ops db n r,
     nth_error db n = Some r -> active r = 0 ->
     exists r', nth_error (run cfg ops db) n = Some r' /\
                session_id r' = session_id r /\ active r' = 0).
Proof.
  split.
  - intros payload s_id j t_iat t_exp t_created t_last db db' out C.
    apply create_session_ok in C. destruct C as (I & _).
    apply sql_insert_some in I. destruct I as [-> _]. eauto.
  - intros ops db n r H H0.
    destruct (run_nth ops _ _ _ H) as (r' & H' & (A & _) & E). eauto.
Qed.

(** C6 (as the code has it).  Whatever is wrong with a bearer token, a
    string that is no token, a wrong algorithm, signature, issuer or
    audience, a missing claim, or a hard expiry that has passed, the request
    is answered with the one exception 401 "Invalid token". *)
Theorem verification_failures_collapse :
  (forall raw t,
     parse_auth_token cfg (Bearer (Malformed raw)) t
     = Raise (mkHTTPException 401 "Invalid token")) /\
  (forall alg key p t,
     alg <> JWT_ALG \/ key <> JWT_SECRET cfg \/
     p_iss p <> Some (JWT_ISS cfg) \/ p_aud p <> Some (JWT_AUD cfg) \/
     session_claims p = None \/
     (exists e, p_exp p = Some e /\ e <= t) ->
     parse_auth_token cfg (Bearer (Signed alg key p)) t
     = Raise (mkHTTPException 401 "Invalid token")).
Proof.
  split; [reflexivity |].
  intros alg key p t H. simpl.
  destruct (String.eqb_spec alg JWT_ALG) as [Ea | Ea]; [| reflexivity].
  destruct (String.eqb_spec key (JWT_SECRET cfg)) as [Ek | Ek];
    [| reflexivity].
  simpl.
  destruct (match p_iat p with Some i => (t <? i)%Z | None => false end);
    [reflexivity |].
  destruct (p_exp p) as [e |] eqn:Ee.
  - destruct (Z.leb_spec e t) as [Le | Le]; [reflexivity |].
    destruct (p_iss p) as [i |] eqn:Ei; [| reflexivity].
    destruct (String.eqb_spec i (JWT_ISS cfg)) as [Eis | Eis];
      [| reflexivity].
    destruct (p_aud p) as [a |] eqn:Eau; [| reflexivity].
    destruct (String.eqb_spec a (JWT_AUD cfg)) as [Ead | Ead];
      [| reflexivity].
    simpl.
    destruct H as [H | [H | [H | [H | [H | (e' & H & Le')]]]]];
      try congruence.
    + now rewrite H.
    + injection H as <-. lia.
  - destruct (p_iss p) as [i |]; [| reflexivity].
    destruct (negb _); [reflexivity |].
    destruct (p_aud p) as [a |]; [| reflexivity].
    destruct (negb _); [reflexivity |].
    unfold session_claims. rewrite Ee.
    destruct (p_sub p), (p_sid p), (p_jti p), (p_iss p), (p_aud p),
      (p_iat p); reflexivity.
Qed.

(** C7 (as the code has it).  For a token that verifies, [end_session]
    answers [{"ok": True}] whatever the table holds.  Rows that carry both
    the token's session id and its [jti] get [active = 0]; every other row
    is kept as it is, and no row is added or removed.  When no row carries
    both (no row for the session id, or a row with another [jti]) the table
    is unchanged. *)
Theorem end_session_always_acknowledges request t_jwt c db :
  parse_auth_token cfg request t_jwt = Ok c ->
  snd (end_session cfg request t_jwt db) = Ok (mkEndOut true) /\
  (no_match (sid c) (c_jti c) db ->
   fst (end_session cfg request t_jwt db) = db) /\
  (forall n r,
     nth_error db n = Some r ->
     nth_error (fst (end_session cfg request t_jwt db)) n
     = Some (if (session_id r =? sid c) && (jti r =? c_jti c)
             then set_active 0 r else r)) /\
  List.length (fst (end_session cfg request t_jwt db)) = List.length db.
Proof.
  intros P. rewrite end_session_unfold, P. simpl. repeat split.
  - intros H. apply sql_update_none. intros r Hin.
    apply andb_false_iff.
    destruct (String.eqb_spec (session_id r) (sid c)) as [E | E];
      [right | now left].
    apply String.eqb_neq. now apply H.
  - intros n r H. unfold update_end.
    exact (sql_update_nth
             (fun x => (session_id x =? sid c) && (jti x =? c_jti c))
             (set_active 0) db n r H).
  - apply sql_update_length.
Qed.

(** C8.  Two [end_session] calls in a row with a request that verifies at
    both calls give the same acknowledgement, and the second leaves the
    table exactly as the first left it. *)
Theorem end_session_idempotent request t1 t2 c1 c2 db :
  parse_auth_token cfg request t1 = Ok c1 ->
  parse_auth_token cfg request t2 = Ok c2 ->
  snd (end_session cfg request t1 db) = Ok (mkEndOut true) /\
  snd (end_session cfg request t2 (fst (end_session cfg request t1 db)))
  = Ok (mkEndOut true) /\
  fst (end_session cfg request t2 (fst (end_session cfg request t1 db)))
  = fst (end_session cfg request t1 db).
Proof.
  intros P1 P2.
  assert (c1 = c2) as <- by (eapply parse_auth_token_claims; eassumption).
  rewrite !end_session_unfold, P1, P2. simpl. repeat split.
  apply sql_update_idem; reflexivity.
Qed.

(** C9.  [me] never writes [last_active]: whatever the request, the clock
    and the table, the rows after the call carry, in the same order, the
    session ids and [last_active] values they carried before. *)
Theorem me_keeps_last_active request t_jwt t_now db :
  map (fun r => (session_id r, last_active r))
      (fst (me cfg request t_jwt t_now db))
  = map (fun r => (session_id r, last_active r)) db.
Proof.
  rewrite me_unfold.
  destruct (parse_auth_token _ _ _); [| reflexivity].
  destruct (select_status _ _ db) as [[act la] |]; [| reflexivity].
  destruct (act =? 0)%Z; [reflexivity |].
  destruct (_ <? _)%Z; [| reflexivity].
  simpl. unfold update_expire, sql_update. rewrite map_map.
  apply map_ext. intros r. now destruct (session_id r =? _).
Qed.

(** C10.  Through any history of operations a stored row stays in the table
    at its place and keeps its [session_id], [user_id], [created_at] and
    [jti]. *)
Theorem identity_columns_immutable ops db n r :
  nth_error db n = Some r ->
  exists r', nth_error (run cfg ops db) n = Some r' /\
             session_id r' = session_id r /\ user_id r' = user_id r /\
             created_at r' = created_at r /\ jti r' = jti r.
Proof.
  intros H. destruct (run_nth ops _ _ _ H) as (r' & H' & S & _).
  exists r'. split; [assumption | exact S].
Qed.

End Theory.

(** * The theorems at work on the sample session *)

Lemma ended_token_stays_rejected_witness :
  let request := Bearer Sample.token in
  let db := run default_config Sample.history
              (fst (end_session default_config request 1050 [Sample.row])) in
  fails (snd (heartbeat default_config request 2200 2200 db)) /\
  fails (snd (me default_config request 2200 2200 db)).
Proof.
  apply (ended_token_stays_rejected default_config (Bearer Sample.token)
           1050 Sample.claims [Sample.row] Sample.history 2200 2200).
  - reflexivity.
  - exists Sample.row. split; [left |]; reflexivity.
Defined.

Lemma unmatched_token_session_not_found_witness :
  heartbeat default_config (Bearer Sample.other_jti_token) 1100 1100
            [Sample.row]
  = ([Sample.row], Raise (mkHTTPException 401 "Session not found")) /\
  me default_config (Bearer Sample.other_jti_token) 1100 1100 [Sample.row]
  = ([Sample.row], Raise (mkHTTPException 401 "Session not found")).
Proof.
  apply (unmatched_token_session_not_found default_config
           (Bearer Sample.other_jti_token) 1100 1100
           Sample.other_jti_claims [Sample.row]).
  - reflexivity.
  - intros r [<- | []] _. discriminate.
Defined.

Lemma created_token_accepted_witness :
  snd (heartbeat default_config (Bearer Sample.token) 1000 1000 [Sample.row])
  = Ok (mkHeartbeatOut true 300) /\
  me default_config (Bearer Sample.token) 1000 1000 [Sample.row]
  = ([Sample.row], Ok (mkMeOut "42" "s1")).
Proof.
  apply (created_token_accepted default_config Sample.alice "s1" "j1"
           1000 1000 1000 1000 [] [Sample.row] Sample.created 1000 1000).
  - reflexivity.
  - lia.
  - lia.
  - simpl. lia.
Defined.

Lemma active_only_falls_witness :
  (exists r, [Sample.row] = ([] ++ [r])%list /\ session_id r = "s1" /\
             active r = 1) /\
  (exists r',
     nth_error (run default_config Sample.history [Sample.ended_row]) 0
     = Some r' /\
     session_id r' = session_id Sample.ended_row /\ active r' = 0).
Proof.
  split.
  - apply (proj1 (active_only_falls default_config) Sample.alice "s1" "j1"
             1000 1000 1000 1000 [] [Sample.row] Sample.created).
    reflexivity.
  - apply (proj2 (active_only_falls default_config) Sample.history
             [Sample.ended_row] 0%nat Sample.ended_row); reflexivity.
Defined.

Lemma verification_failures_collapse_witness :
  parse_auth_token default_config (Bearer Sample.token) 90000
  = Raise (mkHTTPException 401 "Invalid token").
Proof.
  apply (proj2 (verification_failures_collapse default_config)).
  do 5 right. exists 87400. split; [reflexivity | lia].
Defined.

Lemma end_session_always_acknowledges_witness :
  snd (end_session default_config (Bearer Sample.token) 1050 [Sample.row])
  = Ok (mkEndOut true) /\
  nth_error
    (fst (end_session default_config (Bearer Sample.token) 1050 [Sample.row]))
    0
  = Some Sample.ended_row.
Proof.
  destruct (end_session_always_acknowledges default_config
              (Bearer Sample.token) 1050 Sample.claims [Sample.row]
              eq_refl) as (A & _ & B & _).
  split; [exact A |].
  exact (B 0%nat Sample.row eq_refl).
Defined.

Lemma end_session_idempotent_witness :
  snd (end_session default_config (Bearer Sample.token) 1050 [Sample.row])
  = Ok (mkEndOut true) /\
  snd (end_session default_config (Bearer Sample.token) 1060
         (fst (end_session default_config (Bearer Sample.token) 1050
                 [Sample.row])))
  = Ok (mkEndOut true) /\
  fst (end_session default_config (Bearer Sample.token) 1060
         (fst (end_session default_config (Bearer Sample.token) 1050
                 [Sample.row])))
  = fst (end_session default_config (Bearer Sample.token) 1050 [Sample.row]).
Proof.
  apply (end_session_idempotent default_config (Bearer Sample.token)
           1050 1060 Sample.claims Sample.claims [Sample.row]);
    reflexivity.
Defined.

Lemma identity_columns_immutable_witness :
  exists r',
    nth_error (run default_config Sample.history [Sample.row]) 0 = Some r' /\
    session_id r' = "s1" /\ user_id r' = 42 /\
    created_at r' = 1000 /\ jti r' = "j1".
Proof.
  apply (identity_columns_immutable default_config Sample.history
           [Sample.row] 0%nat Sample.row).
  reflexivity.
Defined.

(** * Where the code answers otherwise than the specification says *)

(** C3: a token whose [jti] is not the stored one, for a session that
    exists, gets the very exception a token for a session that was never
    created gets. *)
Lemma jti_mismatch_same_error_as_unknown_session :
  In Sample.row [Sample.row] /\
  session_id Sample.row = sid Sample.other_jti_claims /\
  jti Sample.row <> c_jti Sample.other_jti_claims /\
  snd (heartbeat default_config (Bearer Sample.other_jti_token) 1100 1100
         [Sample.row])
  = snd (heartbeat default_config (Bearer Sample.unknown_token) 1100 1100
           [Sample.row]) /\
  snd (me default_config (Bearer Sample.other_jti_token) 1100 1100
         [Sample.row])
  = snd (me default_config (Bearer Sample.unknown_token) 1100 1100
           [Sample.row]) /\
  snd (heartbeat default_config (Bearer Sample.other_jti_token) 1100 1100
         [Sample.row])
  = Raise (mkHTTPException 401 "Session not found").
Proof.
  repeat split; [now left | discriminate].
Qed.

(** C6: [jwt.decode] tells an expired token from a forged one, and
    [parse_auth_token] answers both with the same exception. *)
Lemma expired_token_same_error_as_forged :
  jwt_decode Sample.token "CHANGE_ME_SECRET" JWT_ALG "bitbet-web" "bitbet"
             90000
  = inl ExpiredSignatureError /\
  jwt_decode Sample.forged_token "CHANGE_ME_SECRET" JWT_ALG "bitbet-web"
             "bitbet" 90000
  = inl InvalidSignatureError /\
  parse_auth_token default_config (Bearer Sample.token) 90000
  = parse_auth_token default_config (Bearer Sample.forged_token) 90000.
Proof. repeat split. Qed.

(** C7: [end_session] acknowledges a token whose session was never created,
    and a token whose [jti] is not the stored one, and leaves the table as
    it was. *)
Lemma end_session_unknown_session_acknowledged :
  end_session default_config (Bearer Sample.unknown_token) 1100 [Sample.row]
  = ([Sample.row], Ok (mkEndOut true)) /\
  end_session default_config (Bearer Sample.other_jti_token) 1100
              [Sample.row]
  = ([Sample.row], Ok (mkEndOut true)) /\
  ~ fails (snd (end_session default_config (Bearer Sample.unknown_token)
                  1100 [])).
Proof. repeat split. intros []. Qed.

(** * Further properties of the backend *)

Section More.

Variable cfg : Config.

(** ** What one operation does to the table *)

Lemma step_shape o db :
  step cfg o db = db \/
  (exists t s, In t (heartbeat_clocks [o]) /\
               step cfg o db = update_touch t s db) \/
  (exists w, step cfg o db = sql_update w (set_active 0) db) \/
  (exists r, active r = 1 /\ sql_insert r db = Some (step cfg o db)).
Proof.
  destruct o as [payload s_id j t1 t2 t3 t4 | request t_jwt t_now
                | request t_jwt | request t_jwt t_now | t_now]; simpl.
  - unfold create_session, bind, execute_insert, ret.
    destruct (sql_insert _ db) as [d |] eqn:E; simpl; [| now left].
    do 3 right. eexists. split; [| exact E]. reflexivity.
  - rewrite heartbeat_unfold.
    destruct (parse_auth_token _ _ _) as [c | e]; [| now left].
    destruct (select_status _ _ db) as [[act la] |]; [| now left].
    destruct (act =? 0)%Z; simpl; [now left |].
    right; left. exists t_now, (sid c). split; [now left | reflexivity].
  - rewrite end_session_unfold.
    destruct (parse_auth_token _ _ _) as [c | e]; simpl; [| now left].
    right; right; left. eexists. reflexivity.
  - rewrite me_unfold.
    destruct (parse_auth_token _ _ _) as [c | e]; [| now left].
    destruct (select_status _ _ db) as [[act la] |]; [| now left].
    destruct (act =? 0)%Z; simpl; [now left |].
    destruct (_ <? _)%Z; simpl; [| now left].
    right; right; left. eexists. reflexivity.
  - right; right; left. eexists. reflexivity.
Qed.


Lemma sql_update_keys where_ set_ db :
  (forall r, session_id (set_ r) = session_id r) ->
  map session_id (sql_update where_ set_ db) = map session_id db.
Proof.
  intros H. unfold sql_update. rewrite map_map. apply map_ext.
  intros r. destruct (where_ r); auto.
Qed.

(** X1.  The primary key survives every history: when no two rows share a
    [session_id], no history of operations, whatever identifiers its
    [create_session] calls draw, produces two rows that do. *)
Theorem primary_key_preserved ops : forall db,
  primary_key db -> primary_key (run cfg ops db).
Proof.
  induction ops as [| o ops IH]; intros db H; [assumption |].
  rewrite run_cons. apply IH. unfold primary_key in *.
  destruct (step_shape o db)
    as [-> | [(t & s & _ & ->) | [(w & ->) | (r & _ & I)]]].
  - assumption.
  - unfold update_touch. now rewrite sql_update_keys.
  - now rewrite sql_update_keys.
  - apply sql_insert_some in I. destruct I as [-> Hfresh].
    rewrite map_app. simpl. apply NoDup_app.
    + assumption.
    + constructor; [intros [] | constructor].
    + intros k Hk [<- | []]. apply in_map_iff in Hk.
      destruct Hk as (x & Hx & Hin). now apply (Hfresh x).
Qed.

(** X2.  The [active] column stays a truth value: when every row holds 0 or
    1 there, every row does after any history. *)
Theorem boolean_active_preserved ops : forall db,
  boolean_active db -> boolean_active (run cfg ops db).
Proof.
  induction ops as [| o ops IH]; intros db H; [assumption |].
  rewrite run_cons. apply IH. unfold boolean_active in *.
  destruct (step_shape o db)
    as [-> | [(t & s & _ & ->) | [(w & ->) | (r & Hr & I)]]].
  - assumption.
  - intros r' Hin. unfold update_touch, sql_update in Hin.
    apply in_map_iff in Hin. destruct Hin as (r & <- & Hin).
    destruct (session_id r =? s); simpl; auto.
  - intros r' Hin. unfold sql_update in Hin.
    apply in_map_iff in Hin. destruct Hin as (r & <- & Hin).
    destruct (w r); simpl; auto.
  - apply sql_insert_some in I. destruct I as [-> _].
    intros r' Hin. apply in_app_or in Hin.
    destruct Hin as [Hin | [<- | []]]; auto.
Qed.


(** ** Tokens *)

(** X4.  Round trip of [make_token] and [parse_auth_token], also across
    configurations: a minted token verifies exactly when the verifying side
    has the same secret, issuer and audience and the clock lies in the
    window from the issue time up to, and excluding, the hard expiry; the
    claims read back are then the ones that were written. *)
Theorem minted_token_round_trip cfg' uid s_id j ttl t_iat t_exp t :
  let request := Bearer (make_token cfg uid s_id j ttl t_iat t_exp) in
  ((exists c, parse_auth_token cfg' request t = Ok c) <->
   JWT_SECRET cfg' = JWT_SECRET cfg /\ JWT_ISS cfg' = JWT_ISS cfg /\
   JWT_AUD cfg' = JWT_AUD cfg /\ t_iat <= t < t_exp + ttl) /\
  (forall c, parse_auth_token cfg' request t = Ok c ->
     c = mkSessionClaims (str uid) s_id j (JWT_ISS cfg) (JWT_AUD cfg)
                         t_iat (t_exp + ttl)).
Proof.
  simpl.
  destruct (String.eqb_spec (JWT_SECRET cfg) (JWT_SECRET cfg')) as [Ek | Ek];
    simpl.
  2: { split; [split |]; [intros [c H] | intros (H & _) | intros c H];
       try discriminate; congruence. }
  destruct (Z.ltb_spec t t_iat) as [Li | Li].
  { split; [split |]; [intros [c H] | intros (_ & _ & _ & H) | intros c H];
      try discriminate; lia. }
  destruct (Z.leb_spec (t_exp + ttl) t) as [Le | Le].
  { split; [split |]; [intros [c H] | intros (_ & _ & _ & H) | intros c H];
      try discriminate; lia. }
  destruct (String.eqb_spec (JWT_ISS cfg) (JWT_ISS cfg')) as [Ei | Ei];
    simpl.
  2: { split; [split |]; [intros [c H] | intros (_ & H & _) | intros c H];
       try discriminate; congruence. }
  destruct (String.eqb_spec (JWT_AUD cfg) (JWT_AUD cfg')) as [Ea | Ea];
    simpl.
  2: { split; [split |]; [intros [c H] | intros (_ & _ & H & _) | intros c H];
       try discriminate; congruence. }
  split; [split |].
  - intros _. repeat split; auto; lia.
  - intros _. eauto.
  - intros c H. now injection H as <-.
Qed.

(** ** Requests that are turned away *)

(** X5.  A request that does not pass [parse_auth_token] (no bearer header,
    or a token that does not verify) is answered 401 by [heartbeat],
    [end_session] and [me] alike, and none of them touches the table. *)
Theorem rejected_request_changes_nothing request t_jwt t_now e db :
  parse_auth_token cfg request t_jwt = Raise e ->
  status_code e = 401 /\
  heartbeat cfg request t_jwt t_now db = (db, Raise e) /\
  end_session cfg request t_jwt db = (db, Raise e) /\
  me cfg request t_jwt t_now db = (db, Raise e).
Proof.
  intros P. rewrite heartbeat_unfold, end_session_unfold, me_unfold, P.
  repeat split.
  destruct request as [| v | token]; simpl in P.
  - now injection P as <-.
  - now injection P as <-.
  - destruct (jwt_decode _ _ _ _ _ _) as [x | p];
      [now injection P as <- |].
    destruct (session_claims p); [discriminate | now injection P as <-].
Qed.

(** X6.  The exceptions each endpoint can raise.  [heartbeat] raises one of
    four, and 410 "Session expired" is not among them; [me] raises one of
    five; [end_session] raises only the two of the bearer check;
    [create_session] raises only the 500 of a refused INSERT. *)
Theorem endpoint_exceptions request t_jwt t_now db :
  (forall e, snd (heartbeat cfg request t_jwt t_now db) = Raise e ->
     In e [mkHTTPException 401 "Missing bearer token";
           mkHTTPException 401 "Invalid token";
           mkHTTPException 401 "Session not found";
           mkHTTPException 410 "Session ended"]) /\
  (forall e, snd (me cfg request t_jwt t_now db) = Raise e ->
     In e [mkHTTPException 401 "Missing bearer token";
           mkHTTPException 401 "Invalid token";
           mkHTTPException 401 "Session not found";
           mkHTTPException 410 "Session ended";
           mkHTTPException 410 "Session expired"]) /\
  (forall e, snd (end_session cfg request t_jwt db) = Raise e ->
     In e [mkHTTPException 401 "Missing bearer token";
           mkHTTPException 401 "Invalid token"]) /\
  (forall payload s_id j t1 t2 t3 t4 e,
     snd (create_session cfg payload s_id j t1 t2 t3 t4 db) = Raise e ->
     e = mkHTTPException 500 "Internal Server Error").
Proof.
  assert (P : forall e, parse_auth_token cfg request t_jwt = Raise e ->
            e = mkHTTPException 401 "Missing bearer token" \/
            e = mkHTTPException 401 "Invalid token").
  { intros e H. destruct request as [| v | token]; simpl in H.
    - left. now injection H as <-.
    - left. now injection H as <-.
    - right. destruct (jwt_decode _ _ _ _ _ _) as [x | p];
        [now injection H as <- |].
      destruct (session_claims p); [discriminate | now injection H as <-]. }
  rewrite heartbeat_unfold, me_unfold, end_session_unfold.
  destruct (parse_auth_token cfg request t_jwt) as [c | e0] eqn:E.
  - repeat split.
    + intros e. destruct (select_status _ _ db) as [[act la] |]; simpl.
      * destruct (act =? 0)%Z; simpl; intros H; [| discriminate].
        injection H as <-. simpl. auto.
      * intros H. injection H as <-. simpl. auto.
    + intros e. destruct (select_status _ _ db) as [[act la] |]; simpl.
      * destruct (act =? 0)%Z; simpl.
        -- intros H. injection H as <-. simpl. auto.
        -- destruct (_ <? _)%Z; simpl; intros H; [| discriminate].
           injection H as <-. simpl. auto 6.
      * intros H. injection H as <-. simpl. auto.
    + simpl. discriminate.
    + intros payload s_id j t1 t2 t3 t4 e.
      unfold create_session, bind, execute_insert, ret.
      destruct (sql_insert _ db); simpl; intros H; [discriminate |].
      now injection H as <-.
  - destruct (P e0 eq_refl) as [-> | ->]; repeat split; simpl;
      try (intros e H; injection H as <-; simpl; auto).
    all: intros payload s_id j t1 t2 t3 t4 e;
      unfold create_session, bind, execute_insert, ret;
      destruct (sql_insert _ db); simpl; intros H; [discriminate |];
      now injection H as <-.
Qed.

(** ** Creating sessions *)

Lemma rstrip_app c s : rstrip c (s ++ String c "") = rstrip c s.
Proof.
  induction s as [| a s IH]; simpl.
  - now rewrite Ascii.eqb_refl.
  - now rewrite IH.
Qed.


(** X8.  The session link does not depend on a trailing slash of the
    configured base URL: [create_session] answers the same with
    [FRONT_BASE_URL = base] and with [FRONT_BASE_URL = base + "/"]. *)
Theorem session_link_ignores_trailing_slash base payload s_id j t_iat t_exp
    t_created t_last db :
  create_session (with_front_base_url cfg (base ++ "/")) payload s_id j
                 t_iat t_exp t_created t_last db
  = create_session (with_front_base_url cfg base) payload s_id j
                   t_iat t_exp t_created t_last db.
Proof.
  unfold create_session, bind, execute_insert, ret. simpl.
  now rewrite rstrip_app.
Qed.

(** ** Lookups after an UPDATE *)

Lemma find_sql_update p where_ set_ db :
  (forall r, p (set_ r) = p r) ->
  find p (sql_update where_ set_ db)
  = option_map (fun r => if where_ r then set_ r else r) (find p db).
Proof.
  intros H. unfold sql_update. induction db as [| x db IH]; simpl.
  - reflexivity.
  - assert (E : p (if where_ x then set_ x else x) = p x)
      by (destruct (where_ x); auto).
    rewrite E. destruct (p x); [reflexivity | exact IH].
Qed.

(** The row a token selects, if any. *)
Lemma select_status_find s j db :
  select_status s j db
  = option_map (fun r => (active r, last_active r))
      (find (fun r => (session_id r =? s) && (jti r =? j)) db).
Proof. unfold select_status. now destruct (find _ db). Qed.

Lemma find_token_row s j db r :
  find (fun r => (session_id r =? s) && (jti r =? j)) db = Some r ->
  In r db /\ session_id r = s /\ jti r = j.
Proof.
  intros F. apply find_some in F. destruct F as [Hin Hc].
  apply andb_true_iff in Hc. destruct Hc as [Hs Hj].
  apply String.eqb_eq in Hs, Hj. auto.
Qed.

Lemma parse_auth_token_raise request t e :
  parse_auth_token cfg request t = Raise e ->
  e = mkHTTPException 401 "Missing bearer token" \/
  e = mkHTTPException 401 "Invalid token".
Proof.
  intros H. destruct request as [| v | token]; simpl in H.
  - left. now injection H as <-.
  - left. now injection H as <-.
  - right. destruct (jwt_decode _ _ _ _ _ _) as [x | p];
      [now injection H as <- |].
    destruct (session_claims p); [discriminate | now injection H as <-].
Qed.

(** ** The sweep *)

(** X9.  Sweeps compose: a sweep at [t1] followed by a sweep at [t2] leaves
    the table a single sweep at the later of the two times leaves.  In
    particular a repeated sweep changes nothing, and a sweep with a clock
    that went back changes nothing. *)
Theorem sweeps_compose t1 t2 db :
  fst (cleanup cfg t2 (fst (cleanup cfg t1 db)))
  = fst (cleanup cfg (Z.max t1 t2) db).
Proof.
  unfold cleanup, execute, update_sweep, sql_update. simpl.
  rewrite map_map. apply map_ext. intros r.
  destruct (Z.eqb_spec (active r) 1) as [A | A]; simpl.
  - destruct (Z.ltb_spec (last_active r) (t1 - SESSION_IDLE_TIMEOUT cfg));
      destruct (Z.ltb_spec (last_active r)
                           (Z.max t1 t2 - SESSION_IDLE_TIMEOUT cfg));
      simpl; try lia; try reflexivity.
    + rewrite A. simpl.
      destruct (Z.ltb_spec (last_active r) (t2 - SESSION_IDLE_TIMEOUT cfg));
        [reflexivity | lia].
    + rewrite A. simpl.
      destruct (Z.ltb_spec (last_active r) (t2 - SESSION_IDLE_TIMEOUT cfg));
        [lia | reflexivity].
  - destruct (Z.eqb_spec (active r) 1); [contradiction | reflexivity].
Qed.

(** X10.  Eager and lazy expiry agree.  On a table whose [active] column
    holds truth values, once the sweep has run at [t_sweep], a [me] call
    whose clock is not later than [t_sweep] finds nothing left to expire:
    it does not write, and it does not answer 410 "Session expired". *)
Theorem swept_table_has_nothing_to_expire request t_jwt t_now t_sweep db :
  boolean_active db ->
  t_now <= t_sweep ->
  let db' := fst (cleanup cfg t_sweep db) in
  fst (me cfg request t_jwt t_now db') = db' /\
  snd (me cfg request t_jwt t_now db')
  <> Raise (mkHTTPException 410 "Session expired").
Proof.
  intros B Ht db'. rewrite me_unfold.
  destruct (parse_auth_token cfg request t_jwt) as [c | e] eqn:P.
  2: { split; [reflexivity |]. simpl.
       destruct (parse_auth_token_raise _ _ _ P) as [-> | ->]; discriminate. }
  destruct (select_status _ _ db') as [[act la] |] eqn:S;
    [| split; [reflexivity | discriminate]].
  destruct (Z.eqb_spec act 0) as [A0 | A0];
    [split; [reflexivity | discriminate] |].
  apply select_status_some in S.
  destruct S as (r' & Hin & _ & _ & <- & <-).
  unfold db', cleanup, execute, update_sweep, sql_update in Hin.
  simpl in Hin. apply in_map_iff in Hin. destruct Hin as (r & <- & Hin).
  destruct (Z.eqb_spec (active r) 1) as [A1 | A1]; simpl in *.
  - destruct (Z.ltb_spec (last_active r) (t_sweep - SESSION_IDLE_TIMEOUT cfg))
      as [L | L]; simpl in *; [contradiction |].
    destruct (Z.ltb_spec (SESSION_IDLE_TIMEOUT cfg) (t_now - last_active r));
      [lia |].
    split; [reflexivity | discriminate].
  - destruct (B r Hin); contradiction.
Qed.

(** ** Heartbeats *)

(** X11.  An accepted heartbeat buys the session a full idle window: as
    long as the token still verifies and no more than the idle timeout has
    passed since the heartbeat, the sweep leaves the session alone and [me]
    answers with the token's user and session, before and after the
    sweep. *)
Theorem heartbeat_extends_session request t_jwt t_now db db1 out c t_jwt' t' :
  heartbeat cfg request t_jwt t_now db = (db1, Ok out) ->
  parse_auth_token cfg request t_jwt' = Ok c ->
  t' - t_now <= SESSION_IDLE_TIMEOUT cfg ->
  me cfg request t_jwt' t' db1 = (db1, Ok (mkMeOut (sub c) (sid c))) /\
  me cfg request t_jwt' t' (fst (cleanup cfg t' db1))
  = (fst (cleanup cfg t' db1), Ok (mkMeOut (sub c) (sid c))).
Proof.
  intros H P Ht. rewrite heartbeat_unfold in H.
  destruct (parse_auth_token cfg request t_jwt) as [c0 | e] eqn:P0;
    [| discriminate].
  assert (c0 = c) as -> by (eapply parse_auth_token_claims; eassumption).
  rewrite select_status_find in H.
  destruct (find _ db) as [r |] eqn:F; simpl in H; [| discriminate].
  destruct (Z.eqb_spec (active r) 0) as [A | A]; [discriminate |].
  injection H as <- _.
  destruct (find_token_row _ _ _ _ F) as (_ & Hs & _).
  assert (F1 : find (fun x => (session_id x =? sid c) && (jti x =? c_jti c))
                    (update_touch t_now (sid c) db)
               = Some (set_last_active t_now r)).
  { unfold update_touch. rewrite find_sql_update by reflexivity.
    rewrite F. simpl. apply String.eqb_eq in Hs. now rewrite Hs. }
  assert (L : (SESSION_IDLE_TIMEOUT cfg <? t' - t_now)%Z = false)
    by (apply Z.ltb_ge; lia).
  rewrite !me_unfold, P. split.
  - rewrite select_status_find, F1. simpl.
    destruct (Z.eqb_spec (active r) 0); [contradiction |].
    now rewrite L.
  - unfold cleanup, execute, update_sweep. simpl.
    rewrite select_status_find, find_sql_update by reflexivity.
    rewrite F1. simpl.
    destruct (Z.ltb_spec t_now (t' - SESSION_IDLE_TIMEOUT cfg)); [lia |].
    rewrite andb_false_r. simpl.
    destruct (Z.eqb_spec (active r) 0); [contradiction |].
    now rewrite L.
Qed.

(** ** Sessions do not interfere *)

(** X12.  What a request does to the table, it does to rows of the
    session its token names: a row of any other session is the same row
    after [heartbeat], [end_session] and [me]. *)
Theorem other_sessions_untouched request t_jwt t_now db n r :
  nth_error db n = Some r ->
  (forall c, parse_auth_token cfg request t_jwt = Ok c ->
             session_id r <> sid c) ->
  nth_error (fst (heartbeat cfg request t_jwt t_now db)) n = Some r /\
  nth_error (fst (end_session cfg request t_jwt db)) n = Some r /\
  nth_error (fst (me cfg request t_jwt t_now db)) n = Some r.
Proof.
  intros H D. rewrite heartbeat_unfold, end_session_unfold, me_unfold.
  destruct (parse_auth_token cfg request t_jwt) as [c | e]; [| auto].
  specialize (D c eq_refl). apply String.eqb_neq in D.
  assert (T : forall t, nth_error (update_touch t (sid c) db) n = Some r).
  { intros t. unfold update_touch.
    rewrite (sql_update_nth _ _ _ _ _ H). now rewrite D. }
  assert (E : nth_error (update_end (sid c) (c_jti c) db) n = Some r).
  { unfold update_end. rewrite (sql_update_nth _ _ _ _ _ H).
    now rewrite D. }
  assert (X : nth_error (update_expire (sid c) db) n = Some r).
  { unfold update_expire. rewrite (sql_update_nth _ _ _ _ _ H).
    now rewrite D. }
  repeat split.
  - destruct (select_status _ _ db) as [[act la] |]; [| assumption].
    destruct (act =? 0)%Z; simpl; auto.
  - exact E.
  - destruct (select_status _ _ db) as [[act la] |]; [| assumption].
    destruct (act =? 0)%Z; simpl; [assumption |].
    destruct (_ <? _)%Z; simpl; auto.
Qed.

(** ** Ended sessions *)

Lemma select_status_exists s j db r :
  In r db -> session_id r = s -> jti r = j ->
  exists act la, select_status s j db = Some (act, la).
Proof.
  intros Hin Hs Hj. rewrite select_status_find.
  destruct (find _ db) as [x |] eqn:F; simpl; [eauto |].
  apply (find_none _ _ F) in Hin. subst s j.
  now rewrite !String.eqb_refl in Hin.
Qed.

(** A token's row stays a token's row through a history. *)
Lemma run_keeps_token_row s j ops db r :
  In r db -> session_id r = s -> jti r = j ->
  exists r', In r' (run cfg ops db) /\ session_id r' = s /\ jti r' = j.
Proof.
  intros Hin Hs Hj. apply In_nth_error in Hin. destruct Hin as (n & Hn).
  destruct (run_nth cfg ops _ _ _ Hn) as (r' & Hn' & (A & _ & _ & D) & _).
  exists r'. split; [eapply nth_error_In; eassumption | split; congruence].
Qed.

Lemma revoked_answer request c db t_jwt t_now :
  parse_auth_token cfg request t_jwt = Ok c ->
  revoked (sid c) (c_jti c) db ->
  (exists r, In r db /\ session_id r = sid c /\ jti r = c_jti c) ->
  heartbeat cfg request t_jwt t_now db
  = (db, Raise (mkHTTPException 410 "Session ended")) /\
  me cfg request t_jwt t_now db
  = (db, Raise (mkHTTPException 410 "Session ended")).
Proof.
  intros P [_ Hall] (r & Hin & Hs & Hj).
  rewrite heartbeat_unfold, me_unfold, P.
  destruct (select_status_exists _ _ _ _ Hin Hs Hj) as (act & la & S).
  rewrite S. apply select_status_some in S.
  destruct S as (x & Hx & Hxs & Hxj & <- & _).
  rewrite (Hall x Hx Hxs Hxj). split; reflexivity.
Qed.

(** X13.  After [end_session] has been served for the token of a stored
    session, a later [heartbeat] or [me] with that token, at a time when the
    token still verifies and after any history, is answered 410 "Session
    ended" and writes nothing. *)
Theorem ended_session_answer request t_end c db ops t_jwt t_now :
  parse_auth_token cfg request t_end = Ok c ->
  (exists r, In r db /\ session_id r = sid c /\ jti r = c_jti c) ->
  parse_auth_token cfg request t_jwt = Ok c ->
  let db' := run cfg ops (fst (end_session cfg request t_end db)) in
  heartbeat cfg request t_jwt t_now db'
  = (db', Raise (mkHTTPException 410 "Session ended")) /\
  me cfg request t_jwt t_now db'
  = (db', Raise (mkHTTPException 410 "Session ended")).
Proof.
  intros P (r & Hin & Hs & Hj) P' db'.
  apply (revoked_answer request c); [assumption | |].
  - apply run_revoked, end_session_revokes; eauto.
  - assert (Hk : exists r0, In r0 (fst (end_session cfg request t_end db)) /\
                   session_id r0 = sid c /\ jti r0 = c_jti c).
    { rewrite end_session_unfold, P. simpl.
      exists (set_active 0 r). repeat split; auto.
      unfold update_end, sql_update. apply in_map_iff. exists r.
      split; [| assumption]. rewrite Hs, Hj.
      now rewrite !String.eqb_refl. }
    destruct Hk as (r0 & Hin0 & Hs0 & Hj0).
    exact (run_keeps_token_row _ _ ops _ _ Hin0 Hs0 Hj0).
Qed.

(** X14.  Lazy expiry is final.  Once [me] has answered 410 "Session
    expired", the token that was presented is turned away by [heartbeat]
    and by [me] at every later time and after any history. *)
Theorem lazily_expired_session_stays_rejected request t_jwt t_now db ops
    t_jwt' t_now' :
  snd (me cfg request t_jwt t_now db)
  = Raise (mkHTTPException 410 "Session expired") ->
  let db' := run cfg ops (fst (me cfg request t_jwt t_now db)) in
  fails (snd (heartbeat cfg request t_jwt' t_now' db')) /\
  fails (snd (me cfg request t_jwt' t_now' db')).
Proof.
  rewrite me_unfold.
  destruct (parse_auth_token cfg request t_jwt) as [c | e] eqn:P.
  2: { simpl. intros H. injection H as ->.
       destruct (parse_auth_token_raise _ _ _ P); discriminate. }
  destruct (select_status _ _ db) as [[act la] |] eqn:S; [| discriminate].
  destruct (act =? 0)%Z; [discriminate |].
  destruct (_ <? _)%Z; [| discriminate].
  simpl. intros _.
  apply (revoked_rejected cfg request t_jwt c); [assumption |].
  apply run_revoked.
  apply select_status_some in S. destruct S as (r & Hin & Hs & _).
  unfold update_expire, sql_update.
  set (f := fun x : Session => _). split.
  - exists (f r). split; [now apply in_map |].
    unfold f. now destruct (_ =? _).
  - intros r' Hin' Hs' _. apply in_map_iff in Hin'.
    destruct Hin' as (x & <- & _). unfold f in *.
    destruct (String.eqb_spec (session_id x) (sid c)); [reflexivity |].
    contradiction.
Qed.

Lemma primary_key_unique db r r' :
  primary_key db -> In r db -> In r' db ->
  session_id r = session_id r' -> r = r'.
Proof.
  unfold primary_key. induction db as [| x db IH]; simpl; [intros _ [] |].
  intros N Hr Hr' E. apply NoDup_cons_iff in N. destruct N as [Nx N].
  destruct Hr as [-> | Hr], Hr' as [-> | Hr'].
  - reflexivity.
  - destruct Nx. rewrite E. now apply in_map.
  - destruct Nx. rewrite <- E. now apply in_map.
  - now apply IH.
Qed.

(** X15.  Idle sessions converge to ended.  On a table that respects the
    primary key, a sweep run more than the idle timeout after a session's
    last activity ends it for good: the session's token is turned away by
    [heartbeat] and by [me] after any history that follows the sweep. *)
Theorem swept_idle_session_stays_rejected request t c db r t_sweep ops
    t_jwt t_now :
  parse_auth_token cfg request t = Ok c ->
  primary_key db ->
  In r db -> session_id r = sid c ->
  active r = 0 \/ active r = 1 ->
  SESSION_IDLE_TIMEOUT cfg < t_sweep - last_active r ->
  let db' := run cfg ops (fst (cleanup cfg t_sweep db)) in
  fails (snd (heartbeat cfg request t_jwt t_now db')) /\
  fails (snd (me cfg request t_jwt t_now db')).
Proof.
  intros P K Hin Hs B Hidle db'.
  apply (revoked_rejected cfg request t c); [assumption |].
  apply run_revoked.
  unfold cleanup, execute, update_sweep, sql_update. simpl.
  set (f := fun x : Session => _). split.
  - exists (f r). split; [now apply in_map |].
    unfold f. now destruct (_ && _).
  - intros r' Hin' Hs' _. apply in_map_iff in Hin'.
    destruct Hin' as (x & <- & Hx).
    assert (x = r) as ->.
    { apply (primary_key_unique db); auto.
      unfold f in Hs'. destruct (_ && _) in Hs'; simpl in Hs'; congruence. }
    unfold f. destruct B as [B | B]; rewrite B; simpl; [assumption |].
    destruct (Z.ltb_spec (last_active r) (t_sweep - SESSION_IDLE_TIMEOUT cfg));
      [reflexivity | lia].
Qed.

(** ** The hard expiry *)

(** X17.  The 24 hours of a session token are absolute.  From its hard
    expiry on, the token [create_session] minted is answered 401 "Invalid
    token" by [heartbeat], [end_session] and [me], whatever the table holds
    and however recently the session was active, and nothing is written. *)
Theorem hard_expiry_is_absolute uid s_id j t_iat t_exp t_jwt t_now db :
  t_exp + 24 * 3600 <= t_jwt ->
  let request :=
    Bearer (make_token cfg uid s_id j (24 * 3600) t_iat t_exp) in
  heartbeat cfg request t_jwt t_now db
  = (db, Raise (mkHTTPException 401 "Invalid token")) /\
  end_session cfg request t_jwt db
  = (db, Raise (mkHTTPException 401 "Invalid token")) /\
  me cfg request t_jwt t_now db
  = (db, Raise (mkHTTPException 401 "Invalid token")).
Proof.
  intros H request.
  assert (P : parse_auth_token cfg request t_jwt
              = Raise (mkHTTPException 401 "Invalid token")).
  { unfold request. simpl. rewrite String.eqb_refl. simpl.
    destruct (t_jwt <? t_iat)%Z; [reflexivity |].
    destruct (Z.leb_spec (t_exp + 86400) t_jwt); [reflexivity | lia]. }
  rewrite heartbeat_unfold, end_session_unfold, me_unfold, P.
  repeat split.
Qed.

End More.

(** * The further properties at work on the sample sessions *)

Lemma primary_key_preserved_witness :
  primary_key (run default_config Sample.history Scenario.two_sessions).
Proof.
  apply (primary_key_preserved default_config Sample.history
           Scenario.two_sessions).
  unfold primary_key. simpl.
  constructor; [intros [H | []]; discriminate |].
  constructor; [intros [] | constructor].
Defined.

Lemma boolean_active_preserved_witness :
  boolean_active (run default_config Sample.history Scenario.two_sessions).
Proof.
  apply (boolean_active_preserved default_config Sample.history
           Scenario.two_sessions).
  intros r [<- | [<- | []]]; right; reflexivity.
Defined.


Lemma minted_token_round_trip_witness :
  (exists c, parse_auth_token default_config (Bearer Sample.token) 5000
             = Ok c) /\
  Sample.claims = mkSessionClaims "42" "s1" "j1" "bitbet" "bitbet-web"
                                  1000 87400.
Proof.
  split.
  - apply (proj2 (proj1 (minted_token_round_trip default_config
                           default_config 42 "s1" "j1" (24 * 3600)
                           1000 1000 5000))).
    repeat split; lia.
  - apply (proj2 (minted_token_round_trip default_config default_config
                    42 "s1" "j1" (24 * 3600) 1000 1000 5000)
                 Sample.claims).
    reflexivity.
Defined.

Lemma rejected_request_changes_nothing_witness :
  status_code (mkHTTPException 401 "Invalid token") = 401 /\
  heartbeat default_config (Bearer Sample.forged_token) 1100 1100
            [Sample.row]
  = ([Sample.row], Raise (mkHTTPException 401 "Invalid token")) /\
  end_session default_config (Bearer Sample.forged_token) 1100 [Sample.row]
  = ([Sample.row], Raise (mkHTTPException 401 "Invalid token")) /\
  me default_config (Bearer Sample.forged_token) 1100 1100 [Sample.row]
  = ([Sample.row], Raise (mkHTTPException 401 "Invalid token")).
Proof.
  apply (rejected_request_changes_nothing default_config
           (Bearer Sample.forged_token) 1100 1100
           (mkHTTPException 401 "Invalid token") [Sample.row]).
  reflexivity.
Defined.

Lemma endpoint_exceptions_witness :
  In (mkHTTPException 410 "Session ended")
     [mkHTTPException 401 "Missing bearer token";
      mkHTTPException 401 "Invalid token";
      mkHTTPException 401 "Session not found";
      mkHTTPException 410 "Session ended"].
Proof.
  apply (proj1 (endpoint_exceptions default_config (Bearer Sample.token)
                  1100 1100 [Sample.ended_row])).
  reflexivity.
Defined.


Lemma swept_table_has_nothing_to_expire_witness :
  fst (me default_config (Bearer Sample.token) 1900 1900
         (fst (cleanup default_config 2000 Scenario.two_sessions)))
  = fst (cleanup default_config 2000 Scenario.two_sessions) /\
  snd (me default_config (Bearer Sample.token) 1900 1900
         (fst (cleanup default_config 2000 Scenario.two_sessions)))
  <> Raise (mkHTTPException 410 "Session expired").
Proof.
  apply (swept_table_has_nothing_to_expire default_config
           (Bearer Sample.token) 1900 1900 2000 Scenario.two_sessions).
  - intros r [<- | [<- | []]]; right; reflexivity.
  - lia.
Defined.

Lemma heartbeat_extends_session_witness :
  me default_config (Bearer Sample.token) 1300 1400 [Scenario.beaten_row]
  = ([Scenario.beaten_row], Ok (mkMeOut "42" "s1")) /\
  me default_config (Bearer Sample.token) 1300 1400
     (fst (cleanup default_config 1400 [Scenario.beaten_row]))
  = (fst (cleanup default_config 1400 [Scenario.beaten_row]),
     Ok (mkMeOut "42" "s1")).
Proof.
  apply (heartbeat_extends_session default_config (Bearer Sample.token)
           1100 1100 [Sample.row] [Scenario.beaten_row]
           (mkHeartbeatOut true 300) Sample.claims 1300 1400).
  - reflexivity.
  - reflexivity.
  - simpl. lia.
Defined.

Lemma other_sessions_untouched_witness :
  nth_error
    (fst (heartbeat default_config (Bearer Sample.token) 1100 1100
            Scenario.two_sessions)) 1
  = Some Scenario.bob_row /\
  nth_error
    (fst (end_session default_config (Bearer Sample.token) 1100
            Scenario.two_sessions)) 1
  = Some Scenario.bob_row /\
  nth_error
    (fst (me default_config (Bearer Sample.token) 1100 1100
            Scenario.two_sessions)) 1
  = Some Scenario.bob_row.
Proof.
  apply (other_sessions_untouched default_config (Bearer Sample.token)
           1100 1100 Scenario.two_sessions 1%nat Scenario.bob_row).
  - reflexivity.
  - intros c H. injection H as <-. discriminate.
Defined.

Lemma ended_session_answer_witness :
  let request := Bearer Sample.token in
  let db := run default_config Sample.history
              (fst (end_session default_config request 1050 [Sample.row])) in
  heartbeat default_config request 2200 2200 db
  = (db, Raise (mkHTTPException 410 "Session ended")) /\
  me default_config request 2200 2200 db
  = (db, Raise (mkHTTPException 410 "Session ended")).
Proof.
  apply (ended_session_answer default_config (Bearer Sample.token) 1050
           Sample.claims [Sample.row] Sample.history 2200 2200).
  - reflexivity.
  - exists Sample.row. repeat split. now left.
  - reflexivity.
Defined.

Lemma lazily_expired_session_stays_rejected_witness :
  let request := Bearer Sample.token in
  let db := run default_config Sample.history
              (fst (me default_config request 2000 2000 [Sample.row])) in
  fails (snd (heartbeat default_config request 2200 2200 db)) /\
  fails (snd (me default_config request 2200 2200 db)).
Proof.
  apply (lazily_expired_session_stays_rejected default_config
           (Bearer Sample.token) 2000 2000 [Sample.row] Sample.history
           2200 2200).
  reflexivity.
Defined.

Lemma swept_idle_session_stays_rejected_witness :
  let request := Bearer Sample.token in
  let db := run default_config Sample.history
              (fst (cleanup default_config 2000 Scenario.two_sessions)) in
  fails (snd (heartbeat default_config request 2200 2200 db)) /\
  fails (snd (me default_config request 2200 2200 db)).
Proof.
  apply (swept_idle_session_stays_rejected default_config
           (Bearer Sample.token) 1100 Sample.claims Scenario.two_sessions
           Sample.row 2000 Sample.history 2200 2200).
  - reflexivity.
  - unfold primary_key. simpl.
    constructor; [intros [H | []]; discriminate |].
    constructor; [intros [] | constructor].
  - now left.
  - reflexivity.
  - now right.
  - simpl. lia.
Defined.

Lemma hard_expiry_is_absolute_witness :
  heartbeat default_config (Bearer Sample.token) 87400 87400
            [set_last_active 87399 Sample.row]
  = ([set_last_active 87399 Sample.row],
     Raise (mkHTTPException 401 "Invalid token")) /\
  end_session default_config (Bearer Sample.token) 87400
              [set_last_active 87399 Sample.row]
  = ([set_last_active 87399 Sample.row],
     Raise (mkHTTPException 401 "Invalid token")) /\
  me default_config (Bearer Sample.token) 87400 87400
     [set_last_active 87399 Sample.row]
  = ([set_last_active 87399 Sample.row],
     Raise (mkHTTPException 401 "Invalid token")).
Proof.
  apply (hard_expiry_is_absolute default_config 42 "s1" "j1" 1000 1000
           87400 87400 [set_last_active 87399 Sample.row]).
  lia.
Defined.
